(** * Markbox: a shallow embedding of [markbox.py]

    Markbox serves Markdown files kept in a Dropbox app folder as a blog.
    This development embeds the parts of [markbox.py] that carry its
    behaviour: the token file reader [read_file], the caching decorator
    [Cache.cached], the OAuth negotiation [Dropbox.connect], the post
    listing [Dropbox.listing] and the single-post handler
    [Markbox.default].

    The code is Python 2 over four libraries (the Dropbox SDK, a memcache
    client, Python-Markdown with a template engine, and parsedatetime).
    The libraries are collaborators: their answers are taken as
    parameters, while every line of [markbox.py] that decides what is
    done with those answers is written out. *)

From Stdlib Require Import ZArith.
From stdpp Require Import base option list strings gmap sorting.

Local Open Scope Z_scope.

(** ** Python values *)

(** A value that is either [None] or a [str] is an [option string]. Python
    tests such a value for truth in [if v], [not v], [a or b] and
    [a and b]: [None] and the empty string are false. *)
Definition truthy (v : option string) : bool :=
  match v with
  | None => false
  | Some s => negb (String.eqb s "")
  end.

(** [a or b]: the first operand when it is true, else the second. *)
Definition py_or (a b : option string) : option string :=
  if truthy a then a else b.

(** A query-string argument as CherryPy hands it over in [kwargs]: a
    string, or a list of strings when the parameter is repeated. *)
Inductive qvalue :=
| QStr (s : string)
| QList (l : list string).

Abbreviation Query := (gmap string qvalue).

(** [v == secret] where [secret] is [os.environ.get(...)]: a string equals
    neither [None] nor a list. *)
Definition py_eq (v : qvalue) (secret : option string) : bool :=
  match v, secret with
  | QStr s, Some k => String.eqb s k
  | _, _ => false
  end.

(** ** The Dropbox SDK's data *)

(** [dropbox.session.OAuthToken] as parsed from a reply of the service. *)
Record OAuthToken := { key : string; secret : string }.

(** [dropbox.rest.ErrorResponse]. *)
Record ErrorResponse := { status : Z; reason : string }.

(** [dropbox.session.DropboxSession]: the application's key pair, the
    access type, and the token the session is linked with, if any. *)
Record DropboxSession := {
  consumer_key : string;
  consumer_secret : string;
  access_type : string;
  request_token : option OAuthToken;
  token : option OAuthToken
}.

(** One entry of a search reply; only [path] is read. *)
Record FileDesc := { path : string }.

(** Calls that reach the remote service. *)
Inductive RemoteCall :=
| CallRequestToken
| CallAccessToken (k s : option string)
| CallSearch (root query : string)
| CallGetFile (fname : string).

(** The remote service as seen through the SDK. [access_token_rsp] takes
    the two fields of the [OAuthToken] built at the call site, which are
    whatever the cache returned, [None] included. *)
Record Remote := {
  request_token_rsp : DropboxSession → ErrorResponse + OAuthToken;
  access_token_rsp :
    DropboxSession → option string → option string → ErrorResponse + OAuthToken;
  build_authorize_url : DropboxSession → OAuthToken → string → string;
  search_rsp : DropboxSession → string → string → ErrorResponse + list FileDesc;
  get_file_rsp : DropboxSession → string → ErrorResponse + string
}.

(** ** Exceptions *)

Inductive exn :=
| IOError (fname : string)
| HTTPRedirect (url : string)
| HTTPError (code : Z) (message : string)
| RestError (e : ErrorResponse)
| AttributeError (attr : string)
| KeyError (k : string)
| IndexError.

(** ** The process state *)

(** A file of the working directory. [open(fname, "r")] fails on a file
    whose [readable] flag is off as it does on a missing file. *)
Record fnode := { readable : bool; data : string }.

Record World := {
  backend : gmap string string;       (* Cache.backend, a memcache client *)
  uncache_key : option string;        (* Cache.uncache_key *)
  files : gmap string fnode;          (* the working directory *)
  client : option DropboxSession;     (* Dropbox.client, a client over a session *)
  app_key : string;                   (* Dropbox.app_key *)
  app_secret : string;                (* Dropbox.app_secret *)
  request_url : string;               (* cherrypy.url() *)
  remote_calls : list RemoteCall;     (* calls made so far, oldest first *)
  server_log : list string            (* cherrypy.log, oldest first *)
}.

Definition with_backend (b : gmap string string) (w : World) : World :=
  {| backend := b; uncache_key := uncache_key w; files := files w;
     client := client w; app_key := app_key w; app_secret := app_secret w;
     request_url := request_url w; remote_calls := remote_calls w;
     server_log := server_log w |}.

Definition with_files (f : gmap string fnode) (w : World) : World :=
  {| backend := backend w; uncache_key := uncache_key w; files := f;
     client := client w; app_key := app_key w; app_secret := app_secret w;
     request_url := request_url w; remote_calls := remote_calls w;
     server_log := server_log w |}.

Definition with_client (c : option DropboxSession) (w : World) : World :=
  {| backend := backend w; uncache_key := uncache_key w; files := files w;
     client := c; app_key := app_key w; app_secret := app_secret w;
     request_url := request_url w; remote_calls := remote_calls w;
     server_log := server_log w |}.

Definition with_remote_calls (l : list RemoteCall) (w : World) : World :=
  {| backend := backend w; uncache_key := uncache_key w; files := files w;
     client := client w; app_key := app_key w; app_secret := app_secret w;
     request_url := request_url w; remote_calls := l;
     server_log := server_log w |}.

Definition with_server_log (l : list string) (w : World) : World :=
  {| backend := backend w; uncache_key := uncache_key w; files := files w;
     client := client w; app_key := app_key w; app_secret := app_secret w;
     request_url := request_url w; remote_calls := remote_calls w;
     server_log := l |}.

(** ** Computations: state threaded through, exceptions propagated

    What a Python statement did before it raised stays done, so a
    computation returns the state in both cases. *)
Definition M (A : Type) : Type := World → (exn + A) * World.

Definition ret {A} (a : A) : M A := λ w, (inr a, w).

Definition raise {A} (e : exn) : M A := λ w, (inl e, w).

Definition bind {A B} (m : M A) (k : A → M B) : M B :=
  λ w, match m w with
       | (inl e, w') => (inl e, w')
       | (inr a, w') => k a w'
       end.

Notation "x <~ m ; k" := (bind m (λ x, k))
  (at level 20, m at level 100, k at level 200, only parsing).

(** [try: m except dropbox.rest.ErrorResponse, e: h e]: only the SDK's
    error is caught. *)
Definition try_rest {A} (m : M A) (h : ErrorResponse → M A) : M A :=
  λ w, match m w with
       | (inl (RestError e), w') => h e w'
       | r => r
       end.

Definition lift_rsp {A} (r : ErrorResponse + A) : M A :=
  match r with
  | inl e => raise (RestError e)
  | inr a => ret a
  end.

(** *** The memcache client *)

Definition cache_get (k : string) : M (option string) :=
  λ w, (inr (backend w !! k), w).

Definition cache_set (k v : string) : M unit :=
  λ w, (inr tt, with_backend (<[k:=v]> (backend w)) w).

Definition cache_delete (k : string) : M unit :=
  λ w, (inr tt, with_backend (delete k (backend w)) w).

(** *** Files *)

(** [with open(fname, "r") as f: return f.read()]. *)
Definition open_read (fname : string) : M string :=
  λ w, match files w !! fname with
       | Some n => if readable n then (inr (data n), w)
                   else (inl (IOError fname), w)
       | None => (inl (IOError fname), w)
       end.

(** [with open(fname, "w") as f: f.write(s)]: the file is created or
    truncated; an existing file keeps its mode. *)
Definition write_node (fname s : string) (fs : gmap string fnode) : gmap string fnode :=
  let r := match fs !! fname with
           | Some n => readable n
           | None => true
           end in
  <[fname := {| readable := r; data := s |}]> fs.

Definition open_write (fname s : string) : M unit :=
  λ w, (inr tt, with_files (write_node fname s (files w)) w).

(** [read_file], lines 25-30: the [IOError] of the read is turned into
    [None]; nothing else is caught. *)
Definition read_file (fname : string) : M (option string) :=
  λ w, match open_read fname w with
       | (inr s, w') => (inr (Some s), w')
       | (inl (IOError _), w') => (inr None, w')
       | (inl e, w') => (inl e, w')
       end.

(** *** The server log *)

Definition cherrypy_log (msg : string) : M unit :=
  λ w, (inr tt, with_server_log (server_log w ++ [msg]) w).

(** ** [Cache.cached], lines 41-55 *)

(** A handler takes the positional arguments and the query string. *)
Abbreviation Handler := (list string → Query → M string).

(** Line 45: ["uncache_key" in kwargs and kwargs["uncache_key"] == self.uncache_key]. *)
Definition uncache_requested (kwargs : Query) (configured : option string) : bool :=
  match kwargs !! "uncache_key" with
  | Some v => py_eq v configured
  | None => false
  end.

Definition cached (cachekey : list string → string) (fn : Handler) : Handler :=
  λ args kwargs,
    let ck := cachekey args in
    content <~ (λ w, if uncache_requested kwargs (uncache_key w)
                     then (_ <~ cache_delete ck; ret None) w
                     else cache_get ck w);
    content <~ (if negb (truthy content) then fn args kwargs
                else ret (default "" content));
    _ <~ cache_set ck content;
    ret content.

(** ** The Dropbox SDK's session and client *)

Definition record_call (c : RemoteCall) : M unit :=
  λ w, (inr tt, with_remote_calls (remote_calls w ++ [c]) w).

Definition set_client (c : option DropboxSession) : M unit :=
  λ w, (inr tt, with_client c w).

(** [sess.set_token(k, s)]. *)
Definition set_token (k s : string) (sess : DropboxSession) : DropboxSession :=
  {| consumer_key := consumer_key sess; consumer_secret := consumer_secret sess;
     access_type := access_type sess; request_token := request_token sess;
     token := Some {| key := k; secret := s |} |}.

Definition set_request_token (t : OAuthToken) (sess : DropboxSession) : DropboxSession :=
  {| consumer_key := consumer_key sess; consumer_secret := consumer_secret sess;
     access_type := access_type sess; request_token := Some t;
     token := token sess |}.

(** ["k" in d] for a dict [d]. *)
Definition has_key {V} (k : string) (d : gmap string V) : bool :=
  match d !! k with
  | Some _ => true
  | None => false
  end.

(** [s[:-3]]. *)
Definition drop_last3 (s : string) : string :=
  String.substring 0 (String.length s - 3) s.

(** ** Sorting as [sorted(l, key=...)] does: ascending and stable *)

Fixpoint insert_by {A} (k : A → Z) (x : A) (l : list A) : list A :=
  match l with
  | [] => [x]
  | y :: l' => if k x <=? k y then x :: l else y :: insert_by k x l'
  end.

Definition sorted {A} (k : A → Z) (l : list A) : list A :=
  foldr (insert_by k) [] l.

(** A post record: the dict built at lines 189-194. [post_date] is the
    [datetime] of the post, counted in seconds. *)
Record Post := {
  post_path : string;
  post_title : string;
  post_date : Z;
  post_html : string
}.

Abbreviation Meta := (gmap string (list string)).

(** [Meta[k][0]]. *)
Definition meta_first (meta : Meta) (k : string) : M string :=
  match meta !! k with
  | None => raise (KeyError k)
  | Some [] => raise IndexError
  | Some (v :: _) => ret v
  end.

Section Markbox.

(** The collaborators. *)
Variable remote : Remote.
(** [get_markdown().convert(src)]: the metadata found and the HTML. *)
Variable md_convert : string → Meta * string.
(** [datetime.fromtimestamp(mktime(cal.parse(s)[0]))]. *)
Variable cal_parse : string → Z.
(** [tpl.get_template("post.html").render(body, page_title, date)]. *)
Variable render_post : string → string → string → string.
(** [traceback.format_exc(e)]. *)
Variable format_exc : ErrorResponse → string.

(** [sess.obtain_request_token()]: the session keeps the token it returns. *)
Definition obtain_request_token (sess : DropboxSession)
  : M (OAuthToken * DropboxSession) :=
  _ <~ record_call CallRequestToken;
  t <~ lift_rsp (request_token_rsp remote sess);
  ret (t, set_request_token t sess).

(** [sess.obtain_access_token(OAuthToken(k, s))]: the session is linked
    with the token it returns. *)
Definition obtain_access_token (sess : DropboxSession) (k s : option string)
  : M (OAuthToken * DropboxSession) :=
  _ <~ record_call (CallAccessToken k s);
  t <~ lift_rsp (access_token_rsp remote sess k s);
  ret (t, set_token (key t) (secret t) sess).

(** [self.client.search(root, query)]. *)
Definition client_search (root query : string) : M (list FileDesc) :=
  λ w, match client w with
       | None => raise (AttributeError "search") w
       | Some sess =>
           (_ <~ record_call (CallSearch root query);
            lift_rsp (search_rsp remote sess root query)) w
       end.

(** [Dropbox.read_file], lines 201-205. *)
Definition dropbox_read_file (fname : string) : M string :=
  λ w, match client w with
       | None => raise (AttributeError "get_file") w
       | Some sess =>
           (_ <~ record_call (CallGetFile fname);
            lift_rsp (get_file_rsp remote sess fname)) w
       end.

(** *** [Dropbox.connect], lines 207-233 *)

(** Line 209. *)
Definition new_session (w : World) : DropboxSession :=
  {| consumer_key := app_key w; consumer_secret := app_secret w;
     access_type := "app_folder"; request_token := None; token := None |}.

(** [self.cache.get(k) or read_file(fname)], lines 212-213: the file is
    read only when the cache gives nothing true. *)
Definition cache_or_file (k fname : string) : M (option string) :=
  c <~ cache_get k;
  if truthy c then ret c else read_file fname.

(** Lines 217-226: the callback from Dropbox. *)
Definition connect_callback (sess : DropboxSession) : M DropboxSession :=
  rk <~ cache_get "r_token";
  rs <~ cache_get "r_token_secret";
  r <~ obtain_access_token sess rk rs;
  _ <~ cache_set "s_token" (key r.1);
  _ <~ cache_set "s_token_secret" (secret r.1);
  _ <~ open_write ".s_token" (key r.1);
  _ <~ open_write ".s_token_secret" (secret r.1);
  _ <~ cache_delete "r_token";
  _ <~ cache_delete "r_token_secret";
  ret r.2.

(** Lines 228-232: the start of the authorization. *)
Definition connect_start (sess : DropboxSession) : M DropboxSession :=
  r <~ obtain_request_token sess;
  _ <~ cache_set "r_token" (key r.1);
  _ <~ cache_set "r_token_secret" (secret r.1);
  λ w, raise (HTTPRedirect (build_authorize_url remote r.2 r.1 (request_url w))) w.

Definition connect (query : Query) : M unit :=
  λ w, match client w with
       | Some _ => ret tt w
       | None =>
           (let sess := new_session w in
            s_token <~ cache_or_file "s_token" ".s_token";
            s_token_secret <~ cache_or_file "s_token_secret" ".s_token_secret";
            sess <~ (if truthy s_token && truthy s_token_secret
                     then ret (set_token (default "" s_token)
                                         (default "" s_token_secret) sess)
                     else if has_key "oauth_token" query
                          then connect_callback sess
                          else connect_start sess);
            set_client (Some sess)) w
       end.

(** *** [Dropbox.listing], lines 181-199 *)

(** One turn of the loop of lines 184-196. *)
Definition listing_step (posts : list Post) (f : FileDesc) : M (list Post) :=
  cont <~ dropbox_read_file (path f);
  let mdown := md_convert cont in
  if has_key "title" mdown.1 && has_key "date" mdown.1
  then
    t <~ meta_first mdown.1 "title";
    d <~ meta_first mdown.1 "date";
    ret (posts ++ [ {| post_path := drop_last3 (path f); post_title := t;
                       post_date := cal_parse d; post_html := mdown.2 |} ])
  else
    _ <~ cherrypy_log ("No title and/or date in file: " +:+ path f);
    ret posts.

Fixpoint listing_loop (fs : list FileDesc) (posts : list Post) : M (list Post) :=
  match fs with
  | [] => ret posts
  | f :: fs' => posts <~ listing_step posts f; listing_loop fs' posts
  end.

Definition listing : M (list Post) :=
  fs <~ client_search "/" ".md";
  posts <~ listing_loop fs [];
  ret (reverse (sorted post_date posts)).

(** [p] is the record lines 189-194 build for the search entry [f]
    when the service, asked through [sess], serves a file whose
    metadata has both a title and a date. *)
Definition post_of_file (sess : DropboxSession) (f : FileDesc) (p : Post) : Prop :=
  ∃ cont t d,
    get_file_rsp remote sess (path f) = inr cont ∧
    has_key "title" (md_convert cont).1 = true ∧
    has_key "date" (md_convert cont).1 = true ∧
    (md_convert cont).1 !! "title" ≫= head = Some t ∧
    (md_convert cont).1 !! "date" ≫= head = Some d ∧
    p = {| post_path := drop_last3 (path f); post_title := t;
           post_date := cal_parse d; post_html := (md_convert cont).2 |}.

(** *** [Markbox.dropbox_error], lines 167-170 *)
Definition dropbox_error (e : ErrorResponse) : string :=
  "<!DOCTYPE html><pre>Dropbox error: " +:+ format_exc e +:+ "</pre>".

(** *** [Markbox.default], lines 129-143

    The function that the decorators of lines 127-128 wrap; [default]
    itself names stdpp's projection out of an option. *)
Definition default_post (title : string) (kwargs : Query) : M string :=
  _ <~ connect kwargs;
  try_rest
    (src <~ dropbox_read_file (title +:+ ".md");
     let mdown := md_convert src in
     t <~ meta_first mdown.1 "title";
     d <~ meta_first mdown.1 "date";
     ret (render_post mdown.2 t d))
    (λ e, if status e =? 404
          then raise (HTTPError 404 "File not found")
          else ret (dropbox_error e)).

End Markbox.

(** What lines 212-213 find for one field of the access token: the
    text a readable file holds, ... *)
Definition file_text (fname : string) (w : World) : option string :=
  match files w !! fname with
  | Some n => if readable n then Some (data n) else None
  | None => None
  end.

(** ... taken when the cache has nothing true under the key. *)
Definition token_source (k fname : string) (w : World) : option string :=
  py_or (backend w !! k) (file_text fname w).

(** The test of line 214 on what lines 212-213 found. *)
Definition pair_available (w : World) : bool :=
  truthy (token_source "s_token" ".s_token" w)
  && truthy (token_source "s_token_secret" ".s_token_secret" w).

(** The file is missing, or it is there and cannot be read. *)
Definition absent_file (fname : string) (w : World) : Prop :=
  files w !! fname = None ∨ ∃ n, files w !! fname = Some n ∧ readable n = false.



(** Most recent first: each post is at least as recent as the next one. *)
Definition descending_by_date (posts : list Post) : Prop :=
  ∀ i p q, posts !! i = Some p → posts !! S i = Some q → post_date q ≤ post_date p.

(** [fn] removes no cache entry when it runs with [args] and [kwargs]. *)
Definition keeps_entries (fn : Handler) (args : list string) (kwargs : Query) : Prop :=
  ∀ w r w', fn args kwargs w = (r, w') →
    ∀ k, is_Some (backend w !! k) → is_Some (backend w' !! k).

(** ** Fixtures: a small blog and a service that answers *)

Module Fixture.

Definition request_tok : OAuthToken := {| key := "rq"; secret := "rqs" |}.
Definition access_tok : OAuthToken := {| key := "ak"; secret := "aks" |}.

Definition not_found : ErrorResponse := {| status := 404; reason := "Not Found" |}.
Definition unavailable : ErrorResponse := {| status := 503; reason := "Service Unavailable" |}.
Definition unauthorized : ErrorResponse := {| status := 401; reason := "Unauthorized" |}.

Definition bodies : gmap string string :=
  {[ "/first.md" := "title: First; date: 2013-01-05; Hello";
     "/second.md" := "title: Second; date: 2013-02-01; World";
     "/draft.md" := "just a draft" ]}.

(** A service that hands out [request_tok], accepts exactly that token
    for [access_tok], lists three files and serves them. *)
Definition remote : Remote :=
  {| request_token_rsp := λ _, inr request_tok;
     access_token_rsp := λ _ k s,
       match k, s with
       | Some "rq", Some "rqs" => inr access_tok
       | _, _ => inl unauthorized
       end;
     build_authorize_url := λ _ t cb,
       "https://www.dropbox.com/1/oauth/authorize?oauth_token=" +:+ key t
         +:+ "&oauth_callback=" +:+ cb;
     search_rsp := λ _ _ _,
       inr [ {| path := "/first.md" |}; {| path := "/draft.md" |};
             {| path := "/second.md" |} ];
     get_file_rsp := λ _ fname,
       match bodies !! fname with
       | Some b => inr b
       | None => inl (if String.eqb fname "down.md" then unavailable else not_found)
       end |}.

Definition md_convert (src : string) : Meta * string :=
  if String.eqb src "just a draft" then (∅, "<p>just a draft</p>")
  else if String.prefix "title: First" src
       then ({[ "title" := ["First"]; "date" := ["2013-01-05"] ]}, "<p>Hello</p>")
       else ({[ "title" := ["Second"]; "date" := ["2013-02-01"] ]}, "<p>World</p>").

Definition cal_parse (s : string) : Z :=
  if String.eqb s "2013-01-05" then 1357344000 else 1359676800.

Definition render_post (body page_title date : string) : string :=
  "<h1>" +:+ page_title +:+ "</h1>" +:+ body.

Definition format_exc (e : ErrorResponse) : string := reason e.

(** A process that has just started: nothing cached, no file, no client. *)
Definition cold : World :=
  {| backend := ∅; uncache_key := Some "sesame"; files := ∅; client := None;
     app_key := "app"; app_secret := "app-secret";
     request_url := "http://blog.example.com/"; remote_calls := [];
     server_log := [] |}.

Definition node (s : string) : fnode := {| readable := true; data := s |}.

(** A handler that leaves a trace of having run. *)
Definition page : Handler :=
  λ _ _, _ <~ cherrypy_log "rendered"; ret "<p>fresh</p>".

(** A handler whose page is empty, as an empty template renders. *)
Definition empty_page : Handler := λ _ _, ret "".

(** The index has been rendered before. *)
Definition warm : World := with_backend {[ "index" := "<p>cached</p>" ]} cold.

(** The index has been rendered by [empty_page]. *)
Definition blank : World := with_backend {[ "index" := "" ]} cold.

(** No [UNCACHE_KEY] in the environment. *)
Definition unguarded : World :=
  {| backend := {[ "index" := "<p>cached</p>" ]}; uncache_key := None;
     files := ∅; client := None; app_key := "app"; app_secret := "app-secret";
     request_url := "http://blog.example.com/"; remote_calls := [];
     server_log := [] |}.

(** A restart after an authorization: the token files are there. *)
Definition restarted : World :=
  with_files {[ ".s_token" := node "ak"; ".s_token_secret" := node "aks" ]} cold.


(** The same, with a request token the service no longer accepts. *)
Definition stale : World :=
  with_backend {[ "r_token" := "old"; "r_token_secret" := "olds" ]} cold.

Definition callback : Query := {[ "oauth_token" := QStr "rq" ]}.


Definition linked : DropboxSession :=
  {| consumer_key := "app"; consumer_secret := "app-secret";
     access_type := "app_folder"; request_token := None;
     token := Some access_tok |}.

(** A process with its client bound. *)
Definition authorized : World := with_client (Some linked) cold.

Definition first_post : Post :=
  {| post_path := "/first"; post_title := "First"; post_date := 1357344000;
     post_html := "<p>Hello</p>" |}.

Definition second_post : Post :=
  {| post_path := "/second"; post_title := "Second"; post_date := 1359676800;
     post_html := "<p>World</p>" |}.

End Fixture.

(** ** The routes and the start of the server *)

(** The record of the search entry [f], if its file is served and has a
    first title and a first date: what one turn of the loop of
    [Dropbox.listing] appends. *)
Definition file_post (remote : Remote) (md_convert : string → Meta * string)
    (cal_parse : string → Z) (sess : DropboxSession) (f : FileDesc) : option Post :=
  match get_file_rsp remote sess (path f) with
  | inl _ => None
  | inr cont =>
      let mdown := md_convert cont in
      if has_key "title" mdown.1 && has_key "date" mdown.1
      then match mdown.1 !! "title" ≫= head, mdown.1 !! "date" ≫= head with
           | Some t, Some d =>
               Some {| post_path := drop_last3 (path f); post_title := t;
                       post_date := cal_parse d; post_html := mdown.2 |}
           | _, _ => None
           end
      else None
  end.

(** [pyatom.AtomFeed]: what the constructor is given, and the entries in
    the order in which [add] received them. *)
Record AtomEntry := {
  entry_title : string;
  entry_url : string;
  entry_author : string;
  entry_content_type : string;
  entry_content : string;
  entry_updated : Z
}.

Record AtomFeed := {
  feed_title : string;
  feed_home : string;
  feed_url : string;
  feed_author : string;
  feed_entries : list AtomEntry
}.

Section Routes.

Variable remote : Remote.
Variable md_convert : string → Meta * string.
Variable cal_parse : string → Z.
Variable render_post : string → string → string → string.
(** [tpl.get_template("list.html").render(posts=posts)]. *)
Variable render_list : list Post → string.
Variable format_exc : ErrorResponse → string.
(** [atom.to_string()]. *)
Variable atom_to_string : AtomFeed → string.
(** [self.blog_title], [self.feed_author] and [cherrypy.request.base]. *)
Variable blog_title : string.
Variable author : string.
Variable request_base : string.

(** *** [Markbox.index], lines 147-153 *)
Definition index (kwargs : Query) : M string :=
  _ <~ connect remote kwargs;
  try_rest
    (posts <~ listing remote md_convert cal_parse;
     ret (render_list posts))
    (λ e, ret (dropbox_error format_exc e)).

(** Lines 145-147: [index] under [cache.cached(lambda a: "index")]. *)
Definition index_route : Handler :=
  cached (λ _, "index") (λ _ kwargs, index kwargs).

(** Lines 127-129, for a request of one path segment: [args] is
    [(self, title)]. The list of positional arguments leaves [self] out,
    so the key [a[1]] is its head, and so is the title that [default]
    receives. *)
Definition default_route (title : string) (kwargs : Query) : M string :=
  cached (λ a, default "" (head a))
    (λ a kwargs,
       default_post remote md_convert render_post format_exc (default "" (head a)) kwargs)
    [title] kwargs.

(** Lines 117-122: the entry [atom.add] is given for a post. *)
Definition atom_entry (post : Post) : AtomEntry :=
  {| entry_title := post_title post;
     entry_url := request_base +:+ post_path post;
     entry_author := author;
     entry_content_type := "html";
     entry_content := post_html post;
     entry_updated := post_date post |}.

(** *** [Markbox._feed], lines 109-125

    The function that the decorators of lines 106-108 wrap. *)
Definition feed (kwargs : Query) : M string :=
  _ <~ connect remote kwargs;
  try_rest
    (λ w,
       (posts <~ listing remote md_convert cal_parse;
        ret (atom_to_string
               {| feed_title := blog_title; feed_home := request_base;
                  feed_url := request_url w; feed_author := author;
                  feed_entries := atom_entry <$> posts |})) w)
    (λ e, ret (dropbox_error format_exc e)).

End Routes.

(** *** [Markbox.__init__], lines 76-98

    The lines that set what the handlers read. [w0] is what the process
    finds: the entries of the memcache server, the working directory,
    the log. *)

Definition newline : string := String (Ascii.ascii_of_nat 10) "".

Definition credentials_message : string :=
  "Dropbox credentials not found in the env." +:+ newline
    +:+ "            Set DROPBOX_APP_KEY and DROPBOX_APP_SECRET env variables!".

Definition uncache_message : string := "Uncache key not found in the env.".

(** [__init__] returns, or line 94 reads a local that no line has bound. *)
Inductive Started :=
| Running (w : World)
| UnboundLocalError (name : string) (log : list string).

Definition markbox_init (env : gmap string string) (w0 : World) : Started :=
  let store := if has_key "MEMCACHE_SERVERS" env then backend w0 else ∅ in
  if has_key "DROPBOX_APP_KEY" env && has_key "DROPBOX_APP_SECRET" env
  then
    let secret := env !! "UNCACHE_KEY" in
    Running
      {| backend := store; uncache_key := secret; files := files w0;
         client := None;
         app_key := default "" (env !! "DROPBOX_APP_KEY");
         app_secret := default "" (env !! "DROPBOX_APP_SECRET");
         request_url := request_url w0; remote_calls := remote_calls w0;
         server_log := if truthy secret then server_log w0
                       else server_log w0 ++ [uncache_message] |}
  else UnboundLocalError "db_app_key" (server_log w0 ++ [credentials_message]).


(** ** More of the blog of [Fixture] *)

Module Scenario.

(** A handler that sends the visitor away. *)
Definition redirecting : Handler :=
  λ _ _, raise (HTTPRedirect "https://www.dropbox.com/1/oauth/authorize").



(** The stale process after the service has refused the exchange. *)
Definition refused : World :=
  with_remote_calls [CallAccessToken (Some "old") (Some "olds")] Fixture.stale.

(** The restarted process with its client bound from the files. *)
Definition resumed : World := with_client (Some Fixture.linked) Fixture.restarted.

(** Token files of an earlier authorization, and a newer pair in the cache. *)
Definition renewed : World :=
  with_backend {[ "s_token" := "ak2"; "s_token_secret" := "aks2" ]} Fixture.restarted.

(** A token in the cache and no secret anywhere. *)
Definition half : World := with_backend {[ "s_token" := "ak" ]} Fixture.cold.

(** The returning process after the exchange. *)
Definition exchanged : World :=
  with_client (Some Fixture.linked)
    (with_backend {[ "s_token" := "ak"; "s_token_secret" := "aks" ]}
       (with_files {[ ".s_token" := Fixture.node "ak";
                      ".s_token_secret" := Fixture.node "aks" ]}
          (with_remote_calls [CallAccessToken (Some "rq") (Some "rqs")] Fixture.cold))).

(** The authorized process after a listing. *)
Definition listed : World :=
  with_server_log ["No title and/or date in file: /draft.md"]
    (with_remote_calls
       [CallSearch "/" ".md"; CallGetFile "/first.md"; CallGetFile "/draft.md";
        CallGetFile "/second.md"] Fixture.authorized).

Definition search_reply : list FileDesc :=
  [ {| path := "/first.md" |}; {| path := "/draft.md" |}; {| path := "/second.md" |} ].

Definition render_list (posts : list Post) : string :=
  foldr (λ p acc, "<li>" +:+ post_title p +:+ "</li>" +:+ acc) "" posts.

Definition index_page : string := "<li>Second</li><li>First</li>".

(** The authorized process after the index has been served. *)
Definition indexed : World := with_backend {[ "index" := index_page ]} listed.

Definition atom_to_string (fd : AtomFeed) : string :=
  feed_title fd +:+ ":" +:+
  foldr (λ a acc, " " +:+ entry_url a +:+ acc) "" (feed_entries fd).

Definition the_feed : AtomFeed :=
  {| feed_title := "Blog"; feed_home := "http://blog.example.com";
     feed_url := "http://blog.example.com/"; feed_author := "Greg";
     feed_entries :=
       [ {| entry_title := "Second"; entry_url := "http://blog.example.com/second";
            entry_author := "Greg"; entry_content_type := "html";
            entry_content := "<p>World</p>"; entry_updated := 1359676800 |};
         {| entry_title := "First"; entry_url := "http://blog.example.com/first";
            entry_author := "Greg"; entry_content_type := "html";
            entry_content := "<p>Hello</p>"; entry_updated := 1357344000 |} ] |}.




(** Environments. *)
Definition env : gmap string string :=
  {[ "DROPBOX_APP_KEY" := "app"; "DROPBOX_APP_SECRET" := "app-secret" ]}.


(** What the process finds when it starts. *)
Definition found : World :=
  {| backend := ∅; uncache_key := None; files := ∅; client := None;
     app_key := ""; app_secret := "";
     request_url := "http://blog.example.com/"; remote_calls := [];
     server_log := [] |}.


End Scenario.

(** * Properties *)

(** ** State bookkeeping *)

Lemma with_backend_id w : with_backend (backend w) w = w.
Proof. by destruct w. Qed.

Lemma truthy_Some_true s : s ≠ "" → truthy (Some s) = true.
Proof.
  intros Hs. unfold truthy.
  destruct (String.eqb_spec s "") as [->|]; [done | reflexivity].
Qed.

Lemma py_eq_None v : py_eq v None = false.
Proof. by destruct v. Qed.

Lemma uncache_requested_None kwargs : uncache_requested kwargs None = false.
Proof.
  unfold uncache_requested. destruct (kwargs !! "uncache_key"); [|done].
  apply py_eq_None.
Qed.


(** ** The caching decorator *)

(** What [cached] does when line 45 is false: lines 49-53. *)
Lemma cached_lookup_path cachekey fn args kwargs w :
  uncache_requested kwargs (uncache_key w) = false →
  cached cachekey fn args kwargs w =
    (content <~ cache_get (cachekey args);
     content <~ (if negb (truthy content) then fn args kwargs
                 else ret (default "" content));
     _ <~ cache_set (cachekey args) content;
     ret content) w.
Proof. intros Hu. unfold cached, bind. by rewrite Hu. Qed.

(** C5, as amended: a request without a matching invalidation parameter
    that finds a non-empty entry under its key gets that entry back. The
    result does not depend on [fn] and the state is the one before the
    call, so the underlying computation has not run. *)
Theorem cached_hit cachekey fn args kwargs w v :
  uncache_requested kwargs (uncache_key w) = false →
  backend w !! cachekey args = Some v →
  v ≠ "" →
  cached cachekey fn args kwargs w = (inr v, w).
Proof.
  intros Hu Hv Hne. rewrite cached_lookup_path by done.
  unfold bind, cache_get, cache_set, ret. rewrite Hv, truthy_Some_true by done.
  simpl. by rewrite insert_id, with_backend_id.
Qed.


(** C9: with no secret configured, line 45 is false for every query, so
    [cached] takes the lookup path; and when the handler itself removes
    no entry, every entry present before the request is present after
    it. *)
Theorem no_secret_no_delete cachekey fn args (kwargs : Query) w :
  uncache_key w = None →
  uncache_requested kwargs (uncache_key w) = false ∧
  cached cachekey fn args kwargs w =
    (content <~ cache_get (cachekey args);
     content <~ (if negb (truthy content) then fn args kwargs
                 else ret (default "" content));
     _ <~ cache_set (cachekey args) content;
     ret content) w ∧
  (keeps_entries fn args kwargs →
   ∀ r w', cached cachekey fn args kwargs w = (r, w') →
     ∀ k, is_Some (backend w !! k) → is_Some (backend w' !! k)).
Proof.
  intros Hnone.
  assert (Hu : uncache_requested kwargs (uncache_key w) = false).
  { rewrite Hnone. apply uncache_requested_None. }
  split; [exact Hu |]. split; [by apply cached_lookup_path |].
  intros Hkeep r w' Hc k Hk. rewrite cached_lookup_path in Hc by done.
  unfold bind, cache_get, cache_set, ret in Hc.
  destruct (truthy (backend w !! cachekey args)); simpl in Hc.
  - injection Hc as <- <-. simpl.
    destruct (decide (cachekey args = k)) as [->|Hne].
    + rewrite lookup_insert_eq. eauto.
    + by rewrite lookup_insert_ne.
  - destruct (fn args kwargs w) as [[e|content] w2] eqn:Hfn.
    + injection Hc as <- <-. by eapply Hkeep.
    + injection Hc as <- <-. simpl.
      destruct (decide (cachekey args = k)) as [->|Hne].
      * rewrite lookup_insert_eq. eauto.
      * rewrite lookup_insert_ne by done. by eapply Hkeep.
Qed.

(** ** Reading the token files *)

Lemma open_read_text fname w s :
  open_read fname w = (inr s, w) ↔ file_text fname w = Some s.
Proof.
  unfold open_read, file_text.
  destruct (files w !! fname) as [n|]; [destruct (readable n) |]; naive_solver.
Qed.

Lemma read_file_text fname w : read_file fname w = (inr (file_text fname w), w).
Proof.
  unfold read_file, open_read, file_text.
  destruct (files w !! fname) as [n|]; [by destruct (readable n) | done].
Qed.

Lemma cache_or_file_source k fname w :
  cache_or_file k fname w = (inr (token_source k fname w), w).
Proof.
  unfold cache_or_file, bind, cache_get, token_source, py_or.
  destruct (truthy (backend w !! k)); [done | apply read_file_text].
Qed.

(** ** Negotiating the session *)

Section Connect.

Variable remote : Remote.

(** Lines 208-233 for a process without a client. *)
Lemma connect_unbound query w :
  client w = None →
  connect remote query w =
    (sess <~ (if pair_available w
              then ret (set_token (default "" (token_source "s_token" ".s_token" w))
                          (default "" (token_source "s_token_secret" ".s_token_secret" w))
                          (new_session w))
              else if has_key "oauth_token" query
                   then connect_callback remote (new_session w)
                   else connect_start remote (new_session w));
     set_client (Some sess)) w.
Proof.
  intros Hc. unfold connect. rewrite Hc. unfold bind at 1.
  rewrite cache_or_file_source. unfold bind at 1.
  rewrite cache_or_file_source. reflexivity.
Qed.

Lemma connect_bound query w : is_Some (client w) → connect remote query w = (inr tt, w).
Proof. intros [c Hc]. unfold connect. by rewrite Hc. Qed.

(** What the callback branch does, by the answer of the service. *)
Lemma connect_callback_run sess w :
  connect_callback remote sess w =
    let rk := backend w !! "r_token" in
    let rs := backend w !! "r_token_secret" in
    let w1 := with_remote_calls (remote_calls w ++ [CallAccessToken rk rs]) w in
    match access_token_rsp remote sess rk rs with
    | inl e => (inl (RestError e), w1)
    | inr t =>
        (inr (set_token (key t) (secret t) sess),
         with_backend
           (delete "r_token_secret" (delete "r_token"
              (<["s_token_secret" := secret t]> (<["s_token" := key t]> (backend w)))))
           (with_files
              (write_node ".s_token_secret" (secret t)
                 (write_node ".s_token" (key t) (files w)))
              w1))
    end.
Proof.
  unfold connect_callback, obtain_access_token, bind, cache_get, record_call.
  simpl. destruct (access_token_rsp remote sess _ _) as [e|t]; reflexivity.
Qed.

(** What the start branch does, by the answer of the service. *)
Lemma connect_start_run sess w :
  connect_start remote sess w =
    let w1 := with_remote_calls (remote_calls w ++ [CallRequestToken]) w in
    match request_token_rsp remote sess with
    | inl e => (inl (RestError e), w1)
    | inr t =>
        (inl (HTTPRedirect
                (build_authorize_url remote (set_request_token t sess) t (request_url w))),
         with_backend
           (<["r_token_secret" := secret t]> (<["r_token" := key t]> (backend w))) w1)
    end.
Proof.
  unfold connect_start, obtain_request_token, bind, record_call.
  simpl. destruct (request_token_rsp remote sess) as [e|t]; reflexivity.
Qed.

Lemma pair_available_files w t s :
  backend w = ∅ →
  file_text ".s_token" w = Some t → t ≠ "" →
  file_text ".s_token_secret" w = Some s → s ≠ "" →
  token_source "s_token" ".s_token" w = Some t ∧
  token_source "s_token_secret" ".s_token_secret" w = Some s ∧
  pair_available w = true.
Proof.
  intros Hb Ht Hte Hs Hse.
  assert (H1 : token_source "s_token" ".s_token" w = Some t).
  { unfold token_source, py_or. by rewrite Hb, lookup_empty. }
  assert (H2 : token_source "s_token_secret" ".s_token_secret" w = Some s).
  { unfold token_source, py_or. by rewrite Hb, lookup_empty. }
  repeat split; [done | done |]. unfold pair_available.
  by rewrite H1, H2, !truthy_Some_true.
Qed.

Lemma file_text_absent fname w : absent_file fname w → file_text fname w = None.
Proof.
  unfold file_text. intros [-> | (n & -> & ->)]; reflexivity.
Qed.

Lemma pair_unavailable_cold w :
  backend w = ∅ → absent_file ".s_token" w → absent_file ".s_token_secret" w →
  pair_available w = false.
Proof.
  intros Hb H1 _. unfold pair_available, token_source, py_or.
  by rewrite Hb, !lookup_empty, (file_text_absent _ _ H1).
Qed.

(** C1: with nothing in the cache and the two token files holding a
    pair of non-empty strings, [connect] returns normally with a
    client bound, so no redirect is raised, and no call has reached the
    service, so there was no handshake. Cache and files are as before.
    A process that had no client gets one whose session carries the
    pair read from the files. *)
Theorem connect_resumes_from_files query w t s :
  backend w = ∅ →
  open_read ".s_token" w = (inr t, w) → t ≠ "" →
  open_read ".s_token_secret" w = (inr s, w) → s ≠ "" →
  ∃ w', connect remote query w = (inr tt, w') ∧
    is_Some (client w') ∧
    (client w = None → client w' = Some (set_token t s (new_session w))) ∧
    remote_calls w' = remote_calls w ∧
    backend w' = backend w ∧ files w' = files w.
Proof.
  intros Hb Ht Hte Hs Hse.
  apply open_read_text in Ht. apply open_read_text in Hs.
  destruct (client w) as [c|] eqn:Hc.
  - exists w. rewrite connect_bound by (rewrite Hc; eauto).
    rewrite Hc. repeat split; eauto. discriminate.
  - destruct (pair_available_files w t s) as (H1 & H2 & Hp); try done.
    eexists. rewrite connect_unbound by done.
    rewrite Hp, H1, H2. unfold bind, ret, set_client. simpl.
    repeat split; eauto.
Qed.


(** C3: a process without a client and without a usable stored pair
    receives a request that carries no [oauth_token]. When the service
    issues a request token, [connect] raises the redirect to the
    authorization URL built from that token and the URL of the current
    request; token and secret are in the cache, the files are as
    before, and the process still has no client. *)
Theorem connect_start_redirects (query : Query) w rt :
  client w = None →
  pair_available w = false →
  query !! "oauth_token" = None →
  request_token_rsp remote (new_session w) = inr rt →
  ∃ w', connect remote query w =
      (inl (HTTPRedirect
              (build_authorize_url remote (set_request_token rt (new_session w)) rt
                 (request_url w))), w') ∧
    remote_calls w' = remote_calls w ++ [CallRequestToken] ∧
    backend w' = <["r_token_secret" := secret rt]> (<["r_token" := key rt]> (backend w)) ∧
    backend w' !! "r_token" = Some (key rt) ∧
    backend w' !! "r_token_secret" = Some (secret rt) ∧
    files w' = files w ∧
    client w' = None.
Proof.
  intros Hc Hp Hq Hrsp.
  eexists. rewrite connect_unbound by done. rewrite Hp.
  unfold has_key. rewrite Hq. unfold bind at 1.
  rewrite connect_start_run. simpl. rewrite Hrsp.
  repeat split; by simplify_map_eq.
Qed.


End Connect.

(** ** Sorting *)

Section Sorting.

Context {A : Type} (k : A → Z).

Let le_key : relation A := λ a b, k a ≤ k b.



Lemma insert_by_HdRel a x l :
  le_key a x → HdRel le_key a l → HdRel le_key a (insert_by k x l).
Proof.
  intros Hax Hal. destruct l as [|y l]; simpl; [by constructor |].
  destruct (k x <=? k y); constructor; [done |]. by inv Hal.
Qed.

Lemma insert_by_Sorted x l : Sorted le_key l → Sorted le_key (insert_by k x l).
Proof.
  induction 1 as [|y l Hl IH Hhd]; simpl; [by repeat constructor |].
  destruct (Z.leb_spec (k x) (k y)) as [Hle|Hgt].
  - constructor; [by constructor | by constructor].
  - constructor; [done |]. apply insert_by_HdRel; [|done]. unfold le_key. lia.
Qed.

Lemma sorted_Sorted l : Sorted le_key (sorted k l).
Proof.
  induction l as [|x l IH]; [constructor |]. by apply insert_by_Sorted.
Qed.

Lemma Sorted_flip_adjacent (l : list A) i a b :
  Sorted (flip le_key) l → l !! i = Some a → l !! S i = Some b → k b ≤ k a.
Proof.
  intros Hs. revert i. induction Hs as [|x l Hl IH Hhd]; intros i Ha Hb; [done |].
  destruct i as [|i]; simpl in *.
  - injection Ha as ->. destruct Hhd as [|y l' Hxy]; [done |].
    simpl in Hb. injection Hb as ->. exact Hxy.
  - by eapply IH.
Qed.

End Sorting.

(** ** Listing the posts *)

Section Listing.

Variable remote : Remote.
Variable md_convert : string → Meta * string.
Variable cal_parse : string → Z.

Local Abbreviation step := (listing_step remote md_convert cal_parse).
Local Abbreviation loop := (listing_loop remote md_convert cal_parse).

Lemma dropbox_read_file_bound fname w sess :
  client w = Some sess →
  dropbox_read_file remote fname w =
    (match get_file_rsp remote sess fname with
     | inl e => inl (RestError e)
     | inr cont => inr cont
     end, with_remote_calls (remote_calls w ++ [CallGetFile fname]) w).
Proof.
  intros Hc. unfold dropbox_read_file. rewrite Hc.
  unfold bind, record_call, lift_rsp. by destruct (get_file_rsp _ _ _).
Qed.


(** Whatever a turn of the loop adds is the record of a file with both
    fields; the client stays. *)
Lemma listing_step_inv posts f w posts' w' sess :
  client w = Some sess →
  step posts f w = (inr posts', w') →
  client w' = Some sess ∧
  (posts' = posts ∨ ∃ p, posts' = posts ++ [p] ∧
                        post_of_file remote md_convert cal_parse sess f p).
Proof.
  intros Hc. unfold listing_step, bind.
  rewrite (dropbox_read_file_bound _ _ sess) by done.
  destruct (get_file_rsp remote sess (path f)) as [e|cont] eqn:Hget; [done |].
  destruct (has_key "title" (md_convert cont).1) eqn:Ht; simpl;
    [destruct (has_key "date" (md_convert cont).1) eqn:Hd; simpl |].
  - unfold meta_first, raise, ret.
    destruct ((md_convert cont).1 !! "title") as [[|t ?]|] eqn:Et; try done.
    destruct ((md_convert cont).1 !! "date") as [[|d ?]|] eqn:Ed; try done.
    intros [= <- <-]. split; [done |]. right. eexists. split; [done |].
    exists cont, t, d. rewrite Et, Ed. by repeat split.
  - unfold cherrypy_log, ret. intros [= <- <-]. split; [done | by left].
  - unfold cherrypy_log, ret. intros [= <- <-]. split; [done | by left].
Qed.


Lemma listing_inv w posts w' :
  listing remote md_convert cal_parse w = (inr posts, w') →
  ∃ sess fs collected,
    client w = Some sess ∧
    search_rsp remote sess "/" ".md" = inr fs ∧
    loop fs [] (with_remote_calls (remote_calls w ++ [CallSearch "/" ".md"]) w)
      = (inr collected, w') ∧
    posts = reverse (sorted post_date collected).
Proof.
  unfold listing, bind, client_search.
  destruct (client w) as [sess|] eqn:Hc; [|done].
  unfold bind, record_call, lift_rsp.
  destruct (search_rsp remote sess "/" ".md") as [e|fs] eqn:Hs; [done |].
  unfold ret at 1.
  destruct (loop fs [] _) as [[e|collected] w1] eqn:Hl; [done |].
  intros [= <- <-]. by exists sess, fs, collected.
Qed.

(** [listing] returns when the client is bound, the search and every
    fetch succeed, and no file has an empty list under a field. *)
Lemma listing_loop_returns sess fs : ∀ posts w,
  client w = Some sess →
  Forall (λ f, ∃ cont, get_file_rsp remote sess (path f) = inr cont ∧
                       (md_convert cont).1 !! "title" ≠ Some [] ∧
                       (md_convert cont).1 !! "date" ≠ Some []) fs →
  ∃ posts' w', loop fs posts w = (inr posts', w').
Proof.
  induction fs as [|f fs IH]; intros posts w Hc Hfs; [by eexists _, _ |].
  apply Forall_cons in Hfs as [(cont & Hget & Ht & Hd) Hfs].
  simpl. unfold bind.
  assert (∃ posts1 w1, step posts f w = (inr posts1, w1)) as (posts1 & w1 & Hstep).
  { unfold listing_step, bind.
    rewrite (dropbox_read_file_bound _ _ sess), Hget by done.
    unfold has_key, meta_first, raise, ret, cherrypy_log.
    destruct ((md_convert cont).1 !! "title") as [[|t ?]|]; simpl;
      destruct ((md_convert cont).1 !! "date") as [[|d ?]|]; simpl;
      try done; by eexists _, _. }
  rewrite Hstep. eapply IH; [|done].
  by destruct (listing_step_inv _ _ _ _ _ _ Hc Hstep).
Qed.

Lemma listing_returns w sess fs :
  client w = Some sess →
  search_rsp remote sess "/" ".md" = inr fs →
  Forall (λ f, ∃ cont, get_file_rsp remote sess (path f) = inr cont ∧
                       (md_convert cont).1 !! "title" ≠ Some [] ∧
                       (md_convert cont).1 !! "date" ≠ Some []) fs →
  ∃ posts w', listing remote md_convert cal_parse w = (inr posts, w').
Proof.
  intros Hc Hs Hfs. unfold listing, bind at 1, client_search.
  rewrite Hc. unfold bind at 1, record_call, lift_rsp. rewrite Hs. unfold ret at 1.
  destruct (listing_loop_returns sess fs []
              (with_remote_calls (remote_calls w ++ [CallSearch "/" ".md"]) w))
    as (collected & w' & Hloop); [done | done |].
  unfold bind. rewrite Hloop. by eexists _, _.
Qed.

(** C4: what [listing] returns is in descending order of date: each
    post is at least as recent as the one after it. *)
Theorem listing_descending w posts w' :
  listing remote md_convert cal_parse w = (inr posts, w') →
  descending_by_date posts.
Proof.
  intros Hl. destruct (listing_inv _ _ _ Hl) as (sess & fs & collected & _ & _ & _ & ->).
  intros i p q Hp Hq.
  eapply (Sorted_flip_adjacent post_date); [|done|done].
  apply Sorted_reverse, sorted_Sorted.
Qed.


End Listing.

(** ** The post handler *)

Section Post.

Variable remote : Remote.
Variable md_convert : string → Meta * string.
Variable render_post : string → string → string → string.
Variable format_exc : ErrorResponse → string.

Local Abbreviation post_handler :=
  (default_post remote md_convert render_post format_exc).

(** [connect] returns only with a client bound. *)
Lemma connect_returns_bound query w w' :
  connect remote query w = (inr tt, w') → is_Some (client w').
Proof.
  destruct (client w) as [c|] eqn:Hc.
  - rewrite connect_bound by (rewrite Hc; eauto). intros [= <-]. rewrite Hc. eauto.
  - rewrite connect_unbound by done. unfold bind.
    match goal with |- context [if ?b then _ else _] =>
      destruct (if b then _ else _) as [[e|sess] w1] end; [done |].
    unfold set_client. intros [= <-]. simpl. eauto.
Qed.

(** C8, as amended: once [connect] has returned, an error of the
    service on the fetch of the post's file is caught. With status
    404 the handler raises [HTTPError 404]; with any other status it
    returns the diagnostic page of [dropbox_error]. An exception that
    [connect] raises, an error of the service during the handshake
    included, leaves the handler as it is: line 130 is outside the
    [try]. *)
Theorem default_post_remote_errors title (kwargs : Query) w :
  (∀ w1 sess e,
     connect remote kwargs w = (inr tt, w1) →
     client w1 = Some sess →
     get_file_rsp remote sess (title +:+ ".md") = inl e →
     post_handler title kwargs w =
       (if status e =? 404
        then inl (HTTPError 404 "File not found")
        else inr (dropbox_error format_exc e),
        with_remote_calls (remote_calls w1 ++ [CallGetFile (title +:+ ".md")]) w1)) ∧
  (∀ x w1,
     connect remote kwargs w = (inl x, w1) →
     post_handler title kwargs w = (inl x, w1)).
Proof.
  split.
  - intros w1 sess e Hconn Hc Hget.
    unfold default_post, bind. rewrite Hconn.
    unfold try_rest, bind.
    rewrite (dropbox_read_file_bound _ _ _ sess), Hget by done.
    by destruct (status e =? 404).
  - intros x w1 Hconn. unfold default_post, bind. by rewrite Hconn.
Qed.

End Post.

(** * The blog of [Fixture], run *)

(** The three files are searched and fetched in turn, the draft is
    logged and left out, and the newer post comes first. *)
Example listing_run :
  listing Fixture.remote Fixture.md_convert Fixture.cal_parse Fixture.authorized =
    (inr [Fixture.second_post; Fixture.first_post],
     with_server_log ["No title and/or date in file: /draft.md"]
       (with_remote_calls
          [CallSearch "/" ".md"; CallGetFile "/first.md"; CallGetFile "/draft.md";
           CallGetFile "/second.md"] Fixture.authorized)).
Proof. vm_compute. reflexivity. Qed.

(** ** The caching decorator *)

(** C5, the claim as stated, fails on an entry that is the empty string,
    which line 52 stores when the handler returns one. The entry is
    there and the query carries no invalidation parameter, yet line 50
    takes the empty string for a miss; the handler runs, as the log
    shows, and its page is returned in place of the entry. *)
Lemma cached_empty_entry_recomputed :
  cached (λ _, "index") Fixture.empty_page [] ∅ Fixture.cold = (inr "", Fixture.blank) ∧
  backend Fixture.blank !! "index" = Some "" ∧
  uncache_requested ∅ (uncache_key Fixture.blank) = false ∧
  cached (λ _, "index") Fixture.page [] ∅ Fixture.blank =
    (inr "<p>fresh</p>",
     with_server_log ["rendered"]
       (with_backend {[ "index" := "<p>fresh</p>" ]} Fixture.blank)) ∧
  cached (λ _, "index") Fixture.page [] ∅ Fixture.blank ≠ (inr "", Fixture.blank).
Proof.
  split_and!; try (vm_compute; reflexivity).
  vm_compute. discriminate.
Qed.

Lemma cached_hit_witness :
  cached (λ _, "index") Fixture.page [] ∅ Fixture.warm = (inr "<p>cached</p>", Fixture.warm).
Proof.
  apply (cached_hit (λ _, "index") Fixture.page [] ∅ Fixture.warm "<p>cached</p>");
    [reflexivity | reflexivity | discriminate].
Defined.


Lemma no_secret_no_delete_witness :
  uncache_requested {[ "uncache_key" := QStr "sesame" ]} (uncache_key Fixture.unguarded)
    = false.
Proof.
  apply (no_secret_no_delete (λ _, "index") Fixture.page []
           {[ "uncache_key" := QStr "sesame" ]} Fixture.unguarded).
  reflexivity.
Defined.

(** ** Negotiating the session *)

Lemma connect_resumes_from_files_witness :
  ∃ w', connect Fixture.remote ∅ Fixture.restarted = (inr tt, w') ∧
    is_Some (client w') ∧
    (client Fixture.restarted = None →
     client w' = Some (set_token "ak" "aks" (new_session Fixture.restarted))) ∧
    remote_calls w' = remote_calls Fixture.restarted ∧
    backend w' = backend Fixture.restarted ∧ files w' = files Fixture.restarted.
Proof.
  apply (connect_resumes_from_files Fixture.remote ∅ Fixture.restarted "ak" "aks");
    [reflexivity | reflexivity | discriminate | reflexivity | discriminate].
Defined.


Lemma connect_start_redirects_witness :
  ∃ w', connect Fixture.remote ∅ Fixture.cold =
      (inl (HTTPRedirect
         "https://www.dropbox.com/1/oauth/authorize?oauth_token=rq&oauth_callback=http://blog.example.com/"),
       w') ∧
    remote_calls w' = remote_calls Fixture.cold ++ [CallRequestToken] ∧
    backend w' = <["r_token_secret" := "rqs"]> (<["r_token" := "rq"]> (backend Fixture.cold)) ∧
    backend w' !! "r_token" = Some "rq" ∧
    backend w' !! "r_token_secret" = Some "rqs" ∧
    files w' = files Fixture.cold ∧
    client w' = None.
Proof.
  apply (connect_start_redirects Fixture.remote ∅ Fixture.cold Fixture.request_tok);
    reflexivity.
Defined.


(** ** Listing the posts *)

Lemma listing_descending_witness :
  descending_by_date [Fixture.second_post; Fixture.first_post].
Proof.
  apply (listing_descending Fixture.remote Fixture.md_convert Fixture.cal_parse
           Fixture.authorized [Fixture.second_post; Fixture.first_post]
           (with_server_log ["No title and/or date in file: /draft.md"]
              (with_remote_calls
                 [CallSearch "/" ".md"; CallGetFile "/first.md"; CallGetFile "/draft.md";
                  CallGetFile "/second.md"] Fixture.authorized))).
  vm_compute. reflexivity.
Defined.


(** ** The post handler *)

(** C8, the claim as stated, fails on an error of the service that
    arrives during the handshake: the stored request token is refused
    with status 401, which is not 404, and the handler ends in that
    error instead of returning the diagnostic page. *)
Lemma default_post_handshake_error_escapes :
  access_token_rsp Fixture.remote (new_session Fixture.stale) (Some "old") (Some "olds")
    = inl Fixture.unauthorized ∧
  status Fixture.unauthorized ≠ 404 ∧
  (default_post Fixture.remote Fixture.md_convert Fixture.render_post Fixture.format_exc
     "first" Fixture.callback Fixture.stale).1 = inl (RestError Fixture.unauthorized) ∧
  (default_post Fixture.remote Fixture.md_convert Fixture.render_post Fixture.format_exc
     "first" Fixture.callback Fixture.stale).1
    ≠ inr (dropbox_error Fixture.format_exc Fixture.unauthorized).
Proof.
  split_and!; try (vm_compute; reflexivity).
  - vm_compute. discriminate.
  - vm_compute. discriminate.
Qed.

Lemma default_post_remote_errors_witness :
  default_post Fixture.remote Fixture.md_convert Fixture.render_post Fixture.format_exc
      "nothing" ∅ Fixture.authorized =
    (inl (HTTPError 404 "File not found"),
     with_remote_calls [CallGetFile "nothing.md"] Fixture.authorized) ∧
  default_post Fixture.remote Fixture.md_convert Fixture.render_post Fixture.format_exc
      "down" ∅ Fixture.authorized =
    (inr "<!DOCTYPE html><pre>Dropbox error: Service Unavailable</pre>",
     with_remote_calls [CallGetFile "down.md"] Fixture.authorized).
Proof.
  split.
  - apply (proj1 (default_post_remote_errors Fixture.remote Fixture.md_convert
                    Fixture.render_post Fixture.format_exc "nothing" ∅ Fixture.authorized)
             Fixture.authorized Fixture.linked Fixture.not_found);
      reflexivity.
  - apply (proj1 (default_post_remote_errors Fixture.remote Fixture.md_convert
                    Fixture.render_post Fixture.format_exc "down" ∅ Fixture.authorized)
             Fixture.authorized Fixture.linked Fixture.unavailable);
      reflexivity.
Defined.

(** * Further properties of the code *)

(** ** The caching decorator, over all its paths *)

Lemma cached_serves_entry cachekey fn args kwargs w v :
  uncache_requested kwargs (uncache_key w) = false →
  backend w !! cachekey args = Some v →
  v ≠ "" →
  cached cachekey fn args kwargs w = (inr v, w).
Proof.
  intros Hu Hv Hne. rewrite cached_lookup_path by done.
  unfold bind, cache_get, cache_set, ret. rewrite Hv, truthy_Some_true by done.
  simpl. by rewrite insert_id, with_backend_id.
Qed.

(** The state in which [cached] runs the handler, when it runs it: the
    entry is deleted first on a matching invalidation parameter. *)
Lemma cached_run cachekey fn args kwargs w :
  cached cachekey fn args kwargs w =
    let ck := cachekey args in
    let requested := uncache_requested kwargs (uncache_key w) in
    let w1 := if requested then with_backend (delete ck (backend w)) w else w in
    let content := if requested then None else backend w !! ck in
    if truthy content
    then (inr (default "" content), with_backend (<[ck := default "" content]> (backend w)) w)
    else match fn args kwargs w1 with
         | (inl e, w2) => (inl e, w2)
         | (inr c, w2) => (inr c, with_backend (<[ck := c]> (backend w2)) w2)
         end.
Proof.
  unfold cached, bind, cache_get, cache_delete, cache_set, ret.
  destruct (uncache_requested kwargs (uncache_key w)); simpl.
  - by destruct (fn args kwargs _) as [[e|c] w2].
  - destruct (truthy (backend w !! cachekey args)); simpl; [done |].
    by destruct (fn args kwargs w) as [[e|c] w2].
Qed.

Lemma cached_returned_stored cachekey fn args kwargs w c w' :
  cached cachekey fn args kwargs w = (inr c, w') →
  backend w' !! cachekey args = Some c.
Proof.
  rewrite cached_run. simpl.
  destruct (truthy _).
  - intros [= <- <-]. simpl. apply lookup_insert_eq.
  - destruct (fn args kwargs _) as [[e|c'] w2]; [done |].
    intros [= <- <-]. simpl. apply lookup_insert_eq.
Qed.

(** X1: whenever the wrapped handler returns, on a hit, on a miss or
    after an invalidation, the cache holds the returned content under the
    key. *)
Theorem cached_stores_what_it_returns cachekey fn args kwargs w c w' :
  cached cachekey fn args kwargs w = (inr c, w') →
  backend w' !! cachekey args = Some c.
Proof.
  unfold cached, bind, cache_get, cache_delete, cache_set, ret.
  destruct (uncache_requested kwargs (uncache_key w)); simpl.
  - destruct (fn args kwargs _) as [[e|c'] w2]; [done |].
    intros [= <- <-]. simpl. apply lookup_insert_eq.
  - destruct (truthy (backend w !! cachekey args)); simpl.
    + intros [= <- <-]. simpl. apply lookup_insert_eq.
    + destruct (fn args kwargs w) as [[e|c'] w2]; [done |].
      intros [= <- <-]. simpl. apply lookup_insert_eq.
Qed.


(** X3: after a request that returned a non-empty page, a request for
    the same key without a matching invalidation parameter gets that page
    back, whatever the handler would now do, and changes nothing. *)
Theorem cached_second_request_hits cachekey fn fn' args args' kwargs kwargs' w c w' :
  cached cachekey fn args kwargs w = (inr c, w') →
  c ≠ "" →
  cachekey args' = cachekey args →
  uncache_requested kwargs' (uncache_key w') = false →
  cached cachekey fn' args' kwargs' w' = (inr c, w').
Proof.
  intros Hfirst Hc Hk Hu.
  apply cached_serves_entry; [done | | done].
  rewrite Hk. by eapply cached_returned_stored.
Qed.

(** ** The negotiation, over all its paths *)

Section ConnectMore.

Variable remote : Remote.

Lemma connect_resume_eq query w t s :
  client w = None →
  token_source "s_token" ".s_token" w = Some t → t ≠ "" →
  token_source "s_token_secret" ".s_token_secret" w = Some s → s ≠ "" →
  connect remote query w =
    (inr tt, with_client (Some (set_token t s (new_session w))) w).
Proof.
  intros Hc Ht Hte Hs Hse. rewrite connect_unbound by done.
  unfold pair_available. rewrite Ht, Hs, !truthy_Some_true by done.
  reflexivity.
Qed.

Lemma connect_handshake_eq query w :
  client w = None →
  pair_available w = false →
  connect remote query w =
    (sess <~ (if has_key "oauth_token" query
              then connect_callback remote (new_session w)
              else connect_start remote (new_session w));
     set_client (Some sess)) w.
Proof. intros Hc Hp. rewrite connect_unbound by done. by rewrite Hp. Qed.

(** The three ways in which [connect] ends. *)
Lemma connect_cases query w r w' :
  connect remote query w = (r, w') →
  (r = inr tt ∧ is_Some (client w') ∧
   (is_Some (client w) → w' = w)) ∨
  (∃ url, r = inl (HTTPRedirect url) ∧ client w = None ∧ client w' = None ∧
          files w' = files w) ∨
  (∃ e, r = inl (RestError e) ∧ client w = None ∧ client w' = None ∧
        backend w' = backend w ∧ files w' = files w).
Proof.
  destruct (client w) as [c|] eqn:Hc.
  - rewrite connect_bound by (rewrite Hc; eauto). intros [= <- <-].
    left. rewrite Hc. eauto.
  - rewrite connect_unbound by done. unfold bind.
    destruct (pair_available w).
    { unfold ret, set_client. intros [= <- <-]. left. simpl.
      split_and!; [done | eauto | by intros [? ?]]. }
    destruct (has_key "oauth_token" query).
    + rewrite connect_callback_run. simpl.
      destruct (access_token_rsp remote _ _ _) as [e|t].
      * intros [= <- <-]. right. right. exists e. by simpl.
      * unfold set_client. intros [= <- <-]. left. simpl.
        split_and!; [done | eauto | by intros [? ?]].
    + rewrite connect_start_run. simpl.
      destruct (request_token_rsp remote _) as [e|t].
      * intros [= <- <-]. right. right. exists e. by simpl.
      * intros [= <- <-]. right. left. eexists. by simpl.
Qed.


(** X5: when the service refuses the handshake, be it the issue of a
    request token or the exchange, the cache and the files are as they
    were: a refused exchange leaves the request token in the cache and
    persists nothing. *)
Theorem connect_refused_keeps_state query w e w' :
  connect remote query w = (inl (RestError e), w') →
  backend w' = backend w ∧ files w' = files w ∧ client w' = None.
Proof.
  intros H. destruct (connect_cases _ _ _ _ H)
    as [(Hr & _) | [(url & Hr & _) | (e' & _ & _ & Hc & Hb & Hf)]];
    [done | done | by split_and!].
Qed.

(** X6: once [connect] has returned, every further [connect], whatever
    its query, returns at once and changes nothing: no cache access, no
    file read, no call to the service. *)
Theorem connect_idempotent query query' w w1 :
  connect remote query w = (inr tt, w1) →
  connect remote query' w1 = (inr tt, w1).
Proof.
  intros H. apply connect_bound.
  destruct (connect_cases _ _ _ _ H)
    as [(_ & Hb & _) | [(url & Hr & _) | (e & Hr & _)]]; done.
Qed.

(** X7: a non-empty token and secret in the cache are used as they are,
    whatever the token files hold: the files take part only when the
    cache has nothing to give. *)
Theorem connect_prefers_cache query w t s :
  client w = None →
  backend w !! "s_token" = Some t → t ≠ "" →
  backend w !! "s_token_secret" = Some s → s ≠ "" →
  connect remote query w =
    (inr tt, with_client (Some (set_token t s (new_session w))) w).
Proof.
  intros Hc Ht Hte Hs Hse. apply connect_resume_eq; try done.
  - unfold token_source, py_or. by rewrite Ht, truthy_Some_true.
  - unfold token_source, py_or. by rewrite Hs, truthy_Some_true.
Qed.

(** X8: half a pair is no pair. When the token, or the secret, is
    neither in the cache nor in its file, an empty string counting as
    nothing, the other half is ignored and [connect] goes through the
    handshake: the callback branch if the query has [oauth_token], else
    the start branch. *)
Theorem connect_ignores_half_pair query w :
  client w = None →
  (truthy (backend w !! "s_token") = false ∧
   truthy (file_text ".s_token" w) = false) ∨
  (truthy (backend w !! "s_token_secret") = false ∧
   truthy (file_text ".s_token_secret" w) = false) →
  connect remote query w =
    (sess <~ (if has_key "oauth_token" query
              then connect_callback remote (new_session w)
              else connect_start remote (new_session w));
     set_client (Some sess)) w.
Proof.
  intros Hc Hhalf. apply connect_handshake_eq; [done |].
  unfold pair_available, token_source, py_or.
  destruct Hhalf as [[-> ->] | [-> ->]]; [done | apply andb_false_r].
Qed.

End ConnectMore.

Section Handshake.

Variable remote : Remote.




End Handshake.

(** ** Sorting keeps the order of equal keys *)

Section Stable.

Context {A : Type} (k : A → Z).

Lemma insert_by_filter c x l :
  filter (λ y, k y = c) (insert_by k x l) = filter (λ y, k y = c) (x :: l).
Proof.
  induction l as [|y l IH]; simpl; [done |].
  destruct (Z.leb_spec (k x) (k y)) as [Hle|Hgt]; [done |].
  rewrite (filter_cons _ y), IH, !filter_cons.
  repeat case_decide; try done. lia.
Qed.

Lemma sorted_filter c l :
  filter (λ y, k y = c) (sorted k l) = filter (λ y, k y = c) l.
Proof.
  induction l as [|x l IH]; [done |].
  change (sorted k (x :: l)) with (insert_by k x (sorted k l)).
  by rewrite insert_by_filter, !filter_cons, IH.
Qed.

End Stable.

(** ** The listing, exactly *)

Section ListingMore.

Variable remote : Remote.
Variable md_convert : string → Meta * string.
Variable cal_parse : string → Z.

Local Abbreviation step := (listing_step remote md_convert cal_parse).
Local Abbreviation loop := (listing_loop remote md_convert cal_parse).
Local Abbreviation contribution := (file_post remote md_convert cal_parse).

(** A turn of the loop that does not raise has fetched the file, has
    appended the record of the file if it has one, and has left cache,
    files and client alone. *)
Lemma listing_step_exact posts f w posts' w' sess :
  client w = Some sess →
  step posts f w = (inr posts', w') →
  (∃ cont, get_file_rsp remote sess (path f) = inr cont) ∧
  posts' = posts ++ option_list (contribution sess f) ∧
  client w' = Some sess ∧ backend w' = backend w ∧ files w' = files w ∧
  remote_calls w' = remote_calls w ++ [CallGetFile (path f)].
Proof.
  intros Hc. unfold listing_step, file_post, bind.
  rewrite (dropbox_read_file_bound _ _ _ sess) by done.
  destruct (get_file_rsp remote sess (path f)) as [e|cont] eqn:Hget; [done |].
  simpl.
  destruct (has_key "title" (md_convert cont).1 && has_key "date" (md_convert cont).1).
  - unfold meta_first, raise, ret.
    destruct ((md_convert cont).1 !! "title") as [[|t ?]|]; try done.
    destruct ((md_convert cont).1 !! "date") as [[|d ?]|]; try done.
    intros [= <- <-]. simpl. split_and!; eauto.
  - unfold cherrypy_log, ret. intros [= <- <-]. simpl.
    rewrite app_nil_r. split_and!; eauto.
Qed.

Lemma listing_loop_exact sess fs : ∀ posts w posts' w',
  client w = Some sess →
  loop fs posts w = (inr posts', w') →
  Forall (λ f, ∃ cont, get_file_rsp remote sess (path f) = inr cont) fs ∧
  posts' = posts ++ omap (contribution sess) fs ∧
  client w' = Some sess ∧ backend w' = backend w ∧ files w' = files w ∧
  remote_calls w' = remote_calls w ++ ((λ f, CallGetFile (path f)) <$> fs).
Proof.
  induction fs as [|f fs IH]; intros posts w posts' w' Hc Hrun.
  - injection Hrun as <- <-. by rewrite !app_nil_r.
  - simpl in Hrun. unfold bind in Hrun.
    destruct (step posts f w) as [[e|posts1] w1] eqn:Hstep; [done |].
    destruct (listing_step_exact _ _ _ _ _ _ Hc Hstep)
      as (Hget & -> & Hc1 & Hb1 & Hf1 & Hr1).
    destruct (IH _ _ _ _ Hc1 Hrun) as (Hall & -> & Hc2 & Hb2 & Hf2 & Hr2).
    split_and!; [by constructor | | done | congruence | congruence |].
    + rewrite <- app_assoc. f_equal. simpl.
      by destruct (contribution sess f).
    + rewrite Hr2, Hr1, <- app_assoc. done.
Qed.

Lemma listing_exact w posts w' :
  listing remote md_convert cal_parse w = (inr posts, w') →
  ∃ sess fs,
    client w = Some sess ∧
    search_rsp remote sess "/" ".md" = inr fs ∧
    Forall (λ f, ∃ cont, get_file_rsp remote sess (path f) = inr cont) fs ∧
    posts = reverse (sorted post_date (omap (contribution sess) fs)) ∧
    client w' = client w ∧ backend w' = backend w ∧ files w' = files w ∧
    remote_calls w' =
      remote_calls w ++ CallSearch "/" ".md" :: ((λ f, CallGetFile (path f)) <$> fs).
Proof.
  intros Hl.
  destruct (listing_inv _ _ _ _ _ _ Hl) as (sess & fs & collected & Hc & Hs & Hloop & ->).
  destruct (listing_loop_exact sess fs []
              (with_remote_calls (remote_calls w ++ [CallSearch "/" ".md"]) w)
              collected w' Hc Hloop)
    as (Hall & -> & Hc' & Hb & Hf & Hr).
  exists sess, fs. simpl in *.
  split_and!; try done; [congruence |].
  by rewrite Hr, <- app_assoc.
Qed.

(** X11: what [listing] returns is determined by the search reply and
    the files: it is the list of the records of the entries whose file
    has a title and a date, in the order of the reply, sorted by date
    and reversed. No such record is left out and nothing else is put
    in. *)
Theorem listing_is_sorted_records w posts w' :
  listing remote md_convert cal_parse w = (inr posts, w') →
  ∃ sess fs,
    client w = Some sess ∧
    search_rsp remote sess "/" ".md" = inr fs ∧
    posts = reverse (sorted post_date (omap (contribution sess) fs)).
Proof.
  intros Hl. destruct (listing_exact _ _ _ Hl) as (sess & fs & ? & ? & _ & ? & _).
  by exists sess, fs.
Qed.

(** X12: a listing that returns has made one search and then one fetch
    for each entry of the reply, in the order of the reply, each of
    which was served; it has changed neither the cache, nor the files,
    nor the client. *)
Theorem listing_calls_and_frame w posts w' :
  listing remote md_convert cal_parse w = (inr posts, w') →
  ∃ sess fs,
    client w = Some sess ∧
    search_rsp remote sess "/" ".md" = inr fs ∧
    Forall (λ f, ∃ cont, get_file_rsp remote sess (path f) = inr cont) fs ∧
    remote_calls w' =
      remote_calls w ++ CallSearch "/" ".md" :: ((λ f, CallGetFile (path f)) <$> fs) ∧
    client w' = client w ∧ backend w' = backend w ∧ files w' = files w.
Proof.
  intros Hl.
  destruct (listing_exact _ _ _ Hl) as (sess & fs & ? & ? & ? & _ & ? & ? & ? & ?).
  by exists sess, fs.
Qed.

(** X13: posts of one date come out in the reverse of the order in
    which the search reply lists their files: the sort keeps the order
    of equal dates and line 198 then turns the whole list around. *)
Theorem listing_ties_reversed w posts w' :
  listing remote md_convert cal_parse w = (inr posts, w') →
  ∃ sess fs,
    client w = Some sess ∧
    search_rsp remote sess "/" ".md" = inr fs ∧
    ∀ c, filter (λ p, post_date p = c) posts =
         reverse (filter (λ p, post_date p = c) (omap (contribution sess) fs)).
Proof.
  intros Hl. destruct (listing_exact _ _ _ Hl) as (sess & fs & ? & ? & _ & -> & _).
  exists sess, fs. split_and!; [done | done |].
  intros c. by rewrite filter_reverse, sorted_filter.
Qed.

End ListingMore.

(** ** Slugs *)

Lemma substring_prefix s t : String.substring 0 (String.length s) (s +:+ t) = s.
Proof.
  induction s as [|a s IH]; simpl; [by destruct t | by rewrite IH].
Qed.

Lemma length_append s t :
  String.length (s +:+ t) = (String.length s + String.length t)%nat.
Proof. induction s as [|a s IH]; simpl; [done | by rewrite IH]. Qed.

(** X14: the slug of a path is the path without its last three
    characters, so for a path that ends in [.md], or in any extension
    of three characters, slug and extension give the path back; a path
    of three characters or fewer has the empty slug. *)
Theorem drop_last3_round_trip s ext short :
  String.length ext = 3%nat →
  (String.length short ≤ 3)%nat →
  drop_last3 (s +:+ ext) = s ∧ drop_last3 short = "".
Proof.
  intros Hext Hshort. unfold drop_last3. split.
  - rewrite length_append, Hext.
    replace (String.length s + 3 - 3)%nat with (String.length s) by lia.
    apply substring_prefix.
  - replace (String.length short - 3)%nat with 0%nat by lia. by destruct short.
Qed.

(** ** The routes *)

Section RoutesMore.

Variable remote : Remote.
Variable md_convert : string → Meta * string.
Variable cal_parse : string → Z.
Variable render_post : string → string → string → string.
Variable render_list : list Post → string.
Variable format_exc : ErrorResponse → string.

Local Abbreviation post_handler :=
  (default_post remote md_convert render_post format_exc).
Local Abbreviation post_route :=
  (default_route remote md_convert render_post format_exc).
Local Abbreviation index_handler :=
  (index remote md_convert cal_parse render_list format_exc).


Lemma default_post_fetched title (kwargs : Query) w w1 sess :
  connect remote kwargs w = (inr tt, w1) →
  client w1 = Some sess →
  post_handler title kwargs w =
    let w2 := with_remote_calls (remote_calls w1 ++ [CallGetFile (title +:+ ".md")]) w1 in
    match get_file_rsp remote sess (title +:+ ".md") with
    | inl e => (if status e =? 404 then inl (HTTPError 404 "File not found")
                else inr (dropbox_error format_exc e), w2)
    | inr src =>
        (t <~ meta_first (md_convert src).1 "title";
         d <~ meta_first (md_convert src).1 "date";
         ret (render_post (md_convert src).2 t d)) w2
    end.
Proof.
  intros Hconn Hc. unfold default_post, bind at 1. rewrite Hconn.
  unfold try_rest, bind at 1.
  rewrite (dropbox_read_file_bound _ _ _ sess) by done.
  destruct (get_file_rsp remote sess _) as [e|src]; simpl.
  - by destruct (status e =? 404).
  - unfold bind, meta_first, raise, ret.
    destruct ((md_convert src).1 !! "title") as [[|t ?]|]; try done.
    by destruct ((md_convert src).1 !! "date") as [[|d ?]|].
Qed.

(** X15: the post handler does not check the metadata as the listing
    does. A served file without a title makes it raise [KeyError] for
    the title, one with a title and without a date [KeyError] for the
    date, and neither is caught by the handler; with both, the page is
    the template applied to the HTML, the first title and the first
    date. *)
Theorem default_post_by_metadata title (kwargs : Query) w w1 sess src :
  connect remote kwargs w = (inr tt, w1) →
  client w1 = Some sess →
  get_file_rsp remote sess (title +:+ ".md") = inr src →
  let w2 := with_remote_calls (remote_calls w1 ++ [CallGetFile (title +:+ ".md")]) w1 in
  ((md_convert src).1 !! "title" = None →
   post_handler title kwargs w = (inl (KeyError "title"), w2)) ∧
  (∀ t ts, (md_convert src).1 !! "title" = Some (t :: ts) →
           (md_convert src).1 !! "date" = None →
           post_handler title kwargs w = (inl (KeyError "date"), w2)) ∧
  (∀ t ts d ds, (md_convert src).1 !! "title" = Some (t :: ts) →
                (md_convert src).1 !! "date" = Some (d :: ds) →
                post_handler title kwargs w =
                  (inr (render_post (md_convert src).2 t d), w2)).
Proof.
  intros Hconn Hc Hget w2.
  rewrite (default_post_fetched _ _ _ _ _ Hconn Hc), Hget. fold w2.
  unfold bind, meta_first, raise, ret. split_and!.
  - by intros ->.
  - by intros t ts -> ->.
  - by intros t ts d ds -> ->.
Qed.



(** X18: the index has no 404 of its own. Whatever error of the service
    stops the listing, a status of 404 included, the index answers with
    the diagnostic page; when the listing returns, it answers with the
    list template applied to the posts. *)
Theorem index_by_listing (kwargs : Query) w w1 w2 :
  connect remote kwargs w = (inr tt, w1) →
  (∀ e, listing remote md_convert cal_parse w1 = (inl (RestError e), w2) →
        index_handler kwargs w = (inr (dropbox_error format_exc e), w2)) ∧
  (∀ posts, listing remote md_convert cal_parse w1 = (inr posts, w2) →
            index_handler kwargs w = (inr (render_list posts), w2)) ∧
  (∀ sess e, client w1 = Some sess →
             search_rsp remote sess "/" ".md" = inl e →
             index_handler kwargs w =
               (inr (dropbox_error format_exc e),
                with_remote_calls (remote_calls w1 ++ [CallSearch "/" ".md"]) w1)).
Proof.
  intros Hconn. split_and!.
  - intros e Hl. unfold index, bind at 1. rewrite Hconn.
    unfold try_rest, bind. by rewrite Hl.
  - intros posts Hl. unfold index, bind at 1. rewrite Hconn.
    unfold try_rest, bind. by rewrite Hl.
  - intros sess e Hc Hs. unfold index, bind at 1. rewrite Hconn.
    unfold try_rest, bind at 1, listing, bind at 1, client_search.
    rewrite Hc. unfold bind, record_call, lift_rsp. by rewrite Hs.
Qed.

(** X19: the index and the post titled [index] share one cache entry.
    What the index route has returned, if not empty, is what a request
    for the post [index] gets, and what the post route has returned for
    [index] is what the index gets: neither handler runs for the
    second request. *)
Theorem index_key_is_shared args (kwargs kwargs' : Query) w c w' :
  c ≠ "" →
  uncache_requested kwargs' (uncache_key w') = false →
  (index_route remote md_convert cal_parse render_list format_exc args kwargs w
     = (inr c, w') →
   post_route "index" kwargs' w' = (inr c, w')) ∧
  (post_route "index" kwargs w = (inr c, w') →
   index_route remote md_convert cal_parse render_list format_exc args kwargs' w'
     = (inr c, w')).
Proof.
  intros Hc Hu. split; intros Hfirst.
  - unfold default_route. apply cached_serves_entry; [done | | done].
    by apply (cached_returned_stored _ _ _ _ _ _ _ Hfirst).
  - unfold index_route. apply cached_serves_entry; [done | | done].
    by apply (cached_returned_stored _ _ _ _ _ _ _ Hfirst).
Qed.

End RoutesMore.

(** ** The feed *)

Section FeedMore.

Variable remote : Remote.
Variable md_convert : string → Meta * string.
Variable cal_parse : string → Z.
Variable format_exc : ErrorResponse → string.
Variable atom_to_string : AtomFeed → string.
Variable blog_title : string.
Variable author : string.
Variable request_base : string.

Lemma listing_adjacent w posts w' i p q :
  listing remote md_convert cal_parse w = (inr posts, w') →
  posts !! i = Some p → posts !! S i = Some q → post_date q ≤ post_date p.
Proof.
  intros Hl. destruct (listing_exact _ _ _ _ _ _ Hl) as (sess & fs & _ & _ & _ & -> & _).
  apply (Sorted_flip_adjacent post_date). apply Sorted_reverse, sorted_Sorted.
Qed.

(** X20: when the listing returns, the feed given to the serializer has
    one entry for each post of the listing, in the order of the listing:
    the entries are most recent first, and each links to the base of
    the request followed by the slug of its post. When the listing is
    stopped by an error of the service, the answer is the diagnostic
    page. *)
Theorem feed_follows_listing (kwargs : Query) w w1 w2 :
  connect remote kwargs w = (inr tt, w1) →
  (∀ posts, listing remote md_convert cal_parse w1 = (inr posts, w2) →
     let entries := atom_entry author request_base <$> posts in
     feed remote md_convert cal_parse format_exc atom_to_string blog_title
          author request_base kwargs w =
       (inr (atom_to_string
               {| feed_title := blog_title; feed_home := request_base;
                  feed_url := request_url w1; feed_author := author;
                  feed_entries := entries |}), w2) ∧
     (∀ i a b, entries !! i = Some a → entries !! S i = Some b →
               entry_updated b ≤ entry_updated a) ∧
     (∀ i a, entries !! i = Some a →
             ∃ p, posts !! i = Some p ∧ entry_url a = request_base +:+ post_path p)) ∧
  (∀ e, listing remote md_convert cal_parse w1 = (inl (RestError e), w2) →
        feed remote md_convert cal_parse format_exc atom_to_string blog_title
             author request_base kwargs w = (inr (dropbox_error format_exc e), w2)).
Proof.
  intros Hconn. split.
  - intros posts Hl entries. split.
    { unfold feed, bind at 1. rewrite Hconn. unfold try_rest, bind.
      by rewrite Hl. }
    unfold entries. split.
    + intros i a b. rewrite !list_lookup_fmap.
      destruct (posts !! i) as [p|] eqn:Hp; [|done].
      destruct (posts !! S i) as [q|] eqn:Hq; [|done].
      intros [= <-] [= <-]. simpl. by eapply listing_adjacent.
    + intros i a. rewrite list_lookup_fmap.
      destruct (posts !! i) as [p|]; [|done].
      intros [= <-]. by exists p.
  - intros e Hl. unfold feed, bind at 1. rewrite Hconn. unfold try_rest, bind.
    by rewrite Hl.
Qed.

End FeedMore.

(** ** The start of the server *)

(** X21: a server started with the Dropbox credentials, without a
    memcache server and without token files, sends its first visitor to
    the authorization page: when the service issues a request token to
    the session built from the credentials of the environment, the first
    [connect] on a query without [oauth_token] raises the redirect and
    keeps the request token in the cache. *)
Theorem fresh_server_redirects remote (env : gmap string string) w0 (query : Query)
    k s rt :
  env !! "DROPBOX_APP_KEY" = Some k →
  env !! "DROPBOX_APP_SECRET" = Some s →
  env !! "MEMCACHE_SERVERS" = None →
  absent_file ".s_token" w0 →
  absent_file ".s_token_secret" w0 →
  query !! "oauth_token" = None →
  request_token_rsp remote
    {| consumer_key := k; consumer_secret := s; access_type := "app_folder";
       request_token := None; token := None |} = inr rt →
  ∃ w url w',
    markbox_init env w0 = Running w ∧
    client w = None ∧ backend w = ∅ ∧
    connect remote query w = (inl (HTTPRedirect url), w') ∧
    backend w' = {[ "r_token" := key rt; "r_token_secret" := secret rt ]} ∧
    files w' = files w0 ∧
    client w' = None.
Proof.
  intros Hk Hs Hm H1 H2 Hq Hrt.
  unfold markbox_init, has_key. rewrite Hk, Hs, Hm. simpl.
  eexists _, _, _. split; [reflexivity |]. split; [done |]. split; [done |].
  rewrite connect_unbound by done.
  rewrite pair_unavailable_cold by done.
  unfold has_key. rewrite Hq. unfold bind at 1.
  rewrite connect_start_run. unfold new_session. simpl. rewrite Hrt.
  split; [reflexivity |]. simpl. split; [|done].
  apply map_eq. intros i.
  destruct (decide (i = "r_token")) as [->|]; [by simplify_map_eq |].
  destruct (decide (i = "r_token_secret")) as [->|]; by simplify_map_eq.
Qed.


(** * The further properties, run on the blog of [Fixture] *)

Lemma cached_stores_what_it_returns_witness :
  backend (with_server_log ["rendered"]
             (with_backend {[ "index" := "<p>fresh</p>" ]} Fixture.cold)) !! "index"
    = Some "<p>fresh</p>".
Proof.
  apply (cached_stores_what_it_returns (λ _, "index") Fixture.page [] ∅ Fixture.cold).
  vm_compute. reflexivity.
Defined.


Lemma cached_second_request_hits_witness :
  cached (λ _, "index") Scenario.redirecting [] ∅
      (with_server_log ["rendered"]
         (with_backend {[ "index" := "<p>fresh</p>" ]} Fixture.cold))
    = (inr "<p>fresh</p>",
       with_server_log ["rendered"]
         (with_backend {[ "index" := "<p>fresh</p>" ]} Fixture.cold)).
Proof.
  apply (cached_second_request_hits (λ _, "index") Fixture.page Scenario.redirecting
           [] [] ∅ ∅ Fixture.cold);
    [vm_compute; reflexivity | discriminate | reflexivity | reflexivity].
Defined.


Lemma connect_refused_keeps_state_witness :
  backend Scenario.refused = backend Fixture.stale ∧
  files Scenario.refused = files Fixture.stale ∧
  client Scenario.refused = None.
Proof.
  apply (connect_refused_keeps_state Fixture.remote Fixture.callback Fixture.stale
           Fixture.unauthorized).
  vm_compute. reflexivity.
Defined.

Lemma connect_idempotent_witness :
  connect Fixture.remote Fixture.callback Scenario.resumed = (inr tt, Scenario.resumed).
Proof.
  apply (connect_idempotent Fixture.remote ∅ Fixture.callback Fixture.restarted).
  vm_compute. reflexivity.
Defined.

Lemma connect_prefers_cache_witness :
  connect Fixture.remote ∅ Scenario.renewed =
    (inr tt, with_client (Some (set_token "ak2" "aks2" (new_session Scenario.renewed)))
               Scenario.renewed).
Proof.
  apply (connect_prefers_cache Fixture.remote ∅ Scenario.renewed "ak2" "aks2");
    [reflexivity | reflexivity | discriminate | reflexivity | discriminate].
Defined.

Lemma connect_ignores_half_pair_witness :
  connect Fixture.remote ∅ Scenario.half =
    (sess <~ (if has_key "oauth_token" (∅ : Query)
              then connect_callback Fixture.remote (new_session Scenario.half)
              else connect_start Fixture.remote (new_session Scenario.half));
     set_client (Some sess)) Scenario.half.
Proof.
  apply (connect_ignores_half_pair Fixture.remote ∅ Scenario.half);
    [reflexivity | right; split; reflexivity].
Defined.



Lemma listing_is_sorted_records_witness :
  ∃ sess fs,
    client Fixture.authorized = Some sess ∧
    search_rsp Fixture.remote sess "/" ".md" = inr fs ∧
    [Fixture.second_post; Fixture.first_post] =
      reverse (sorted post_date
                 (omap (file_post Fixture.remote Fixture.md_convert Fixture.cal_parse sess)
                       fs)).
Proof.
  apply (listing_is_sorted_records Fixture.remote Fixture.md_convert Fixture.cal_parse
           Fixture.authorized [Fixture.second_post; Fixture.first_post] Scenario.listed).
  vm_compute. reflexivity.
Defined.

Lemma listing_calls_and_frame_witness :
  ∃ sess fs,
    client Fixture.authorized = Some sess ∧
    search_rsp Fixture.remote sess "/" ".md" = inr fs ∧
    Forall (λ f, ∃ cont, get_file_rsp Fixture.remote sess (path f) = inr cont) fs ∧
    remote_calls Scenario.listed =
      remote_calls Fixture.authorized
        ++ CallSearch "/" ".md" :: ((λ f, CallGetFile (path f)) <$> fs) ∧
    client Scenario.listed = client Fixture.authorized ∧
    backend Scenario.listed = backend Fixture.authorized ∧
    files Scenario.listed = files Fixture.authorized.
Proof.
  apply (listing_calls_and_frame Fixture.remote Fixture.md_convert Fixture.cal_parse
           Fixture.authorized [Fixture.second_post; Fixture.first_post] Scenario.listed).
  vm_compute. reflexivity.
Defined.

Lemma listing_ties_reversed_witness :
  ∃ sess fs,
    client Fixture.authorized = Some sess ∧
    search_rsp Fixture.remote sess "/" ".md" = inr fs ∧
    ∀ c, filter (λ p, post_date p = c) [Fixture.second_post; Fixture.first_post] =
         reverse (filter (λ p, post_date p = c)
                    (omap (file_post Fixture.remote Fixture.md_convert Fixture.cal_parse
                             sess) fs)).
Proof.
  apply (listing_ties_reversed Fixture.remote Fixture.md_convert Fixture.cal_parse
           Fixture.authorized [Fixture.second_post; Fixture.first_post] Scenario.listed).
  vm_compute. reflexivity.
Defined.

Lemma drop_last3_round_trip_witness :
  drop_last3 ("/first" +:+ ".md") = "/first" ∧ drop_last3 "md" = "".
Proof.
  apply (drop_last3_round_trip "/first" ".md" "md"); [reflexivity | simpl; lia].
Defined.

Lemma default_post_by_metadata_witness :
  default_post Fixture.remote Fixture.md_convert Fixture.render_post Fixture.format_exc
      "/draft" ∅ Fixture.authorized =
    (inl (KeyError "title"),
     with_remote_calls [CallGetFile "/draft.md"] Fixture.authorized) ∧
  default_post Fixture.remote Fixture.md_convert Fixture.render_post Fixture.format_exc
      "/first" ∅ Fixture.authorized =
    (inr "<h1>First</h1><p>Hello</p>",
     with_remote_calls [CallGetFile "/first.md"] Fixture.authorized).
Proof.
  split.
  - destruct (default_post_by_metadata Fixture.remote Fixture.md_convert
                Fixture.render_post Fixture.format_exc "/draft" ∅ Fixture.authorized
                Fixture.authorized Fixture.linked "just a draft")
      as (Hnone & _ & _); [reflexivity | reflexivity | reflexivity |].
    apply Hnone. reflexivity.
  - destruct (default_post_by_metadata Fixture.remote Fixture.md_convert
                Fixture.render_post Fixture.format_exc "/first" ∅ Fixture.authorized
                Fixture.authorized Fixture.linked
                "title: First; date: 2013-01-05; Hello")
      as (_ & _ & Hboth); [reflexivity | reflexivity | reflexivity |].
    apply (Hboth "First" [] "2013-01-05" []); reflexivity.
Defined.



Lemma index_by_listing_witness :
  index Fixture.remote Fixture.md_convert Fixture.cal_parse Scenario.render_list
      Fixture.format_exc ∅ Fixture.authorized
    = (inr Scenario.index_page, Scenario.listed).
Proof.
  destruct (index_by_listing Fixture.remote Fixture.md_convert Fixture.cal_parse
              Scenario.render_list Fixture.format_exc ∅ Fixture.authorized
              Fixture.authorized Scenario.listed) as (_ & Hok & _); [reflexivity |].
  apply (Hok [Fixture.second_post; Fixture.first_post]).
  vm_compute. reflexivity.
Defined.

Lemma index_key_is_shared_witness :
  default_route Fixture.remote Fixture.md_convert Fixture.render_post Fixture.format_exc
      "index" ∅ Scenario.indexed = (inr Scenario.index_page, Scenario.indexed).
Proof.
  destruct (index_key_is_shared Fixture.remote Fixture.md_convert Fixture.cal_parse
              Fixture.render_post Scenario.render_list Fixture.format_exc [] ∅ ∅
              Fixture.authorized Scenario.index_page Scenario.indexed)
    as [Hpost _]; [discriminate | reflexivity |].
  apply Hpost. vm_compute. reflexivity.
Defined.

Lemma feed_follows_listing_witness :
  feed Fixture.remote Fixture.md_convert Fixture.cal_parse Fixture.format_exc
      Scenario.atom_to_string "Blog" "Greg" "http://blog.example.com" ∅
      Fixture.authorized
    = (inr (Scenario.atom_to_string Scenario.the_feed), Scenario.listed).
Proof.
  destruct (feed_follows_listing Fixture.remote Fixture.md_convert Fixture.cal_parse
              Fixture.format_exc Scenario.atom_to_string "Blog" "Greg"
              "http://blog.example.com" ∅ Fixture.authorized Fixture.authorized
              Scenario.listed) as [Hok _]; [reflexivity |].
  destruct (Hok [Fixture.second_post; Fixture.first_post]) as (Hfeed & _);
    [vm_compute; reflexivity |].
  exact Hfeed.
Defined.

Lemma fresh_server_redirects_witness :
  ∃ w url w',
    markbox_init Scenario.env Scenario.found = Running w ∧
    client w = None ∧ backend w = ∅ ∧
    connect Fixture.remote ∅ w = (inl (HTTPRedirect url), w') ∧
    backend w' = {[ "r_token" := "rq"; "r_token_secret" := "rqs" ]} ∧
    files w' = files Scenario.found ∧
    client w' = None.
Proof.
  apply (fresh_server_redirects Fixture.remote Scenario.env Scenario.found ∅
           "app" "app-secret" Fixture.request_tok);
    [reflexivity | reflexivity | reflexivity | by left | by left | reflexivity
    | reflexivity].
Defined.

